(** * Shepherd API: the dbAuth function [api/src/functions/auth.ts]

    The function configures Redwood's [DbAuthHandler]: four option objects
    (forgot password, login, reset password, signup) whose [handler] closures
    talk to the database, the mailer, the subscription service and PostHog,
    plus the cookie and WebAuthn settings, and returns what
    [authHandler.invoke()] returns.  The closures are embedded as programs
    over the calls they issue; the collaborators themselves and the framework
    are not part of the file and stay abstract. *)

From Stdlib Require Import ZArith String Ascii List Bool Lia DecimalString.
Import ListNotations.

Open Scope string_scope.
Open Scope Z_scope.

(** ** Process environment *)

(** [process.env]: a variable is a string or is undefined. *)
Record ProcessEnv := {
  NODE_ENV : option string;
  POSTHOG_API_KEY : option string
}.

(** [v === s] for [v : string | undefined] and a string literal [s]. *)
Definition strict_eq (v : option string) (s : string) : bool :=
  match v with
  | Some x => String.eqb x s
  | None => false
  end.

(** [v !== s]. *)
Definition strict_neq (v : option string) (s : string) : bool :=
  negb (strict_eq v s).

(** ** Identifiers

    The Prisma schema is not part of the file: the type of [id] columns is a
    parameter, with the conversion a template literal applies to it. *)
Class IdType := {
  Id : Type;
  show_id : Id -> string
}.

(** ** Records exchanged with the collaborators *)

Module Account.
Section Defs.
Context `{IdType}.
Record t := { id : Id; apiKey : string }.
End Defs.
End Account.

Module User.
Section Defs.
Context `{IdType}.
Record t := {
  id : Id;
  email : string;
  hashedPassword : string;
  salt : string;
  name : option string;
  type : string;
  accountId : Id
}.
End Defs.
End User.

(** [interface UserAttributes { name: string; plan?: string }] *)
Module UserAttributes.
Record t := { name : string; plan : option string }.
End UserAttributes.

(** The argument object of the signup handler. *)
Module SignupArgs.
Record t := {
  username : string;
  hashedPassword : string;
  salt : string;
  userAttributes : option UserAttributes.t
}.
End SignupArgs.

(** [data] of [db.account.create]. *)
Module AccountCreate.
Record data := { apiKey : string }.
End AccountCreate.

(** [data] of [db.user.create]. *)
Module UserCreate.
Section Defs.
Context `{IdType}.
Record data := {
  email : string;
  hashedPassword : string;
  salt : string;
  name : option string;
  type : string;
  accountId : Id
}.
End Defs.
End UserCreate.

(** [input] of [sendResetEmail]. *)
Module ResetEmail.
Record input := { to : string; subject : string; resetLink : string }.
End ResetEmail.

(** [input] of [sendWelcomeEmail]. *)
Module WelcomeEmail.
Record input := { to : string; subject : string }.
End WelcomeEmail.

(** [input] of [createSubscription]. *)
Module Subscription.
Section Defs.
Context `{IdType}.
Record input := { status : string; type : string; userId : Id }.
End Defs.
End Subscription.

(** The message given to [phDefaultClient.capture]. *)
Module Capture.
Section Defs.
Context `{IdType}.
(** [properties.$set] *)
Record set := { email : string; name : option string; plan : string }.
Record properties_t := { dollar_set : set }.
Record groups_t := { account : Id }.
Record message := {
  distinctId : string;
  event : string;
  properties : properties_t;
  groups : groups_t
}.
End Defs.
End Capture.

(** ** Calls to the collaborators *)

(** How a call ends for the code that makes it.  [Fulfilled a]: it hands
    back [a]; for an awaited call, the promise is fulfilled with [a].
    [Rejected reason]: it throws; for an awaited call, it throws or the
    promise is rejected.  The same type tells how a handler ends. *)
Inductive Outcome (A : Type) : Type :=
| Fulfilled (a : A)
| Rejected (reason : string).

Arguments Fulfilled {A} a.
Arguments Rejected {A} reason.

(** A promise nobody awaits, given as the way it settles later. *)
Definition Promise (A : Type) : Type := Outcome A.

Section Calls.
Context `{IdType}.

(** One constructor per imported operation the handlers use. *)
Inductive Call : Type :=
| generateAPIKey (length : Z)
| db_account_create (data : AccountCreate.data)
| db_user_create (data : UserCreate.data)
| sendResetEmail (input : ResetEmail.input)
| sendWelcomeEmail (input : WelcomeEmail.input)
| createSubscription (input : Subscription.input)
| phDefaultClient_capture (msg : Capture.message).

(** What a call yields when it completes.  [db.user.create] is tested with
    [if (newUser)]: [None] stands for a falsy result.  The email and
    subscription services hand back a promise that the handlers drop;
    [capture] hands back nothing. *)
Definition Res (c : Call) : Type :=
  match c with
  | generateAPIKey _ => string
  | db_account_create _ => Account.t
  | db_user_create _ => option User.t
  | sendResetEmail _ => Promise unit
  | sendWelcomeEmail _ => Promise unit
  | createSubscription _ => Promise unit
  | phDefaultClient_capture _ => unit
  end.

(** Handler bodies.  [Sync c k] is [const x = c; k], [Await c k] is
    [const x = await c; k], and [Forget c k] is the statement [c; k]: what
    the call hands back is dropped.  No call stands in a [try]. *)
Inductive Prog (R : Type) : Type :=
| Return (r : R)
| Sync (c : Call) (k : Res c -> Prog R)
| Await (c : Call) (k : Res c -> Prog R)
| Forget (c : Call) (k : Prog R).

(** The collaborators: each call acts on the outside world [W] and settles. *)
Definition Services (W : Type) : Type :=
  forall c : Call, W -> Outcome (Res c) * W.

(** An entry of the call log: a call and how it settled. *)
Inductive Entry : Type :=
| Settled (c : Call) (o : Outcome (Res c)).

(** What running a handler leaves behind: how it settled, the world, and
    the calls it issued, oldest first. *)
Record Run (W R : Type) : Type := {
  outcome : Outcome R;
  world : W;
  log : list Entry
}.
End Calls.

Arguments Return {_ R} r.
Arguments Sync {_ R} c k.
Arguments Await {_ R} c k.
Arguments Forget {_ R} c k.
Arguments outcome {_ W R} r.
Arguments world {_ W R} r.
Arguments log {_ W R} r.

Notation "x <- 'call' c ;; k" := (Sync c (fun x => k))
  (at level 61, c at next level, right associativity).
Notation "x <- 'await' c ;; k" := (Await c (fun x => k))
  (at level 61, c at next level, right associativity).
Notation "'forget' c ;; k" := (Forget c k)
  (at level 61, c at next level, right associativity).

Section Semantics.
Context `{IdType} {W R : Type}.

Definition logged (e : Entry) (r : Run W R) : Run W R :=
  {| outcome := outcome r; world := world r; log := e :: log r |}.

(** A call that fails ends the handler with that failure, in the three
    positions alike: the handlers catch nothing.  A [Forget] call that hands
    back a promise lets the handler go on, however the promise settles. *)
Fixpoint run (svc : Services W) (p : Prog R) (w : W) : Run W R :=
  match p with
  | Return r => {| outcome := Fulfilled r; world := w; log := [] |}
  | Sync c k | Await c k =>
      match svc c w with
      | (Fulfilled x, w') => logged (Settled c (Fulfilled x)) (run svc (k x) w')
      | (Rejected e, w') =>
          {| outcome := Rejected e; world := w';
             log := [Settled c (Rejected e)] |}
      end
  | Forget c k =>
      match svc c w with
      | (Fulfilled x, w') => logged (Settled c (Fulfilled x)) (run svc k w')
      | (Rejected e, w') =>
          {| outcome := Rejected e; world := w';
             log := [Settled c (Rejected e)] |}
      end
  end.

Definition call_of (e : Entry) : Call :=
  match e with Settled c _ => c end.

(** The calls issued, oldest first. *)
Definition calls (r : Run W R) : list Call := map call_of (log r).

(** The call failed: it threw, or it was awaited and rejected. *)
Definition rejected (e : Entry) : bool :=
  match e with
  | Settled _ (Rejected _) => true
  | Settled _ (Fulfilled _) => false
  end.

(** The user a fulfilled [db.user.create] returned. *)
Definition created_user (e : Entry) : option User.t :=
  match e with
  | Settled (db_user_create _) (Fulfilled u) => u
  | _ => None
  end.

(** User creation succeeded in the run, with [u] as the new user. *)
Definition user_created (r : Run W R) (u : User.t) : Prop :=
  exists e, In e (log r) /\ created_user e = Some u.

End Semantics.

(** ** The option objects *)

Module ForgotPassword.
Section Defs.
Context `{IdType}.
Record Errors := { usernameNotFound : string; usernameRequired : string }.
Record Options := {
  handler : User.t -> string -> Prog User.t;
  expires : Z;
  errors : Errors
}.
End Defs.
End ForgotPassword.

Module Login.
Section Defs.
Context `{IdType}.
Record Errors := {
  usernameOrPasswordMissing : string;
  usernameNotFound : string;
  incorrectPassword : string
}.
Record Options := {
  handler : User.t -> User.t;
  errors : Errors;
  expires : Z
}.
End Defs.
End Login.

Module ResetPassword.
Section Defs.
Context `{IdType}.
Record Errors := {
  resetTokenExpired : string;
  resetTokenInvalid : string;
  resetTokenRequired : string;
  reusedPassword : string
}.
Record Options := {
  handler : User.t -> bool;
  allowReusedPassword : bool;
  errors : Errors
}.
End Defs.
End ResetPassword.

Module Signup.
Section Defs.
Context `{IdType}.
Record Errors := { fieldMissing : string; usernameTaken : string }.
Record Options := {
  handler : SignupArgs.t -> Prog (option User.t);
  passwordValidation : string -> bool;
  errors : Errors
}.
End Defs.
End Signup.

Module Cookie.
Record Attributes := {
  HttpOnly : bool;
  Path : string;
  SameSite : string;
  Secure : bool
}.
Record t := { attributes : Attributes; name : string }.
End Cookie.

Module WebAuthn.
Record CredentialFields := {
  id : string;
  userId : string;
  publicKey : string;
  transports : string;
  counter : string
}.
Record t := {
  enabled : bool;
  expires : Z;
  name : string;
  domain : string;
  origin : string;
  type : string;
  timeout : Z;
  credentialFields : CredentialFields
}.
End WebAuthn.

Module AuthFields.
Record t := {
  id : string;
  username : string;
  hashedPassword : string;
  salt : string;
  resetToken : string;
  resetTokenExpiresAt : string
}.
End AuthFields.

(** The third argument of [new DbAuthHandler(event, context, ...)], without
    the Prisma client [db]. *)
Module DbAuthHandlerOptions.
Section Defs.
Context `{IdType}.
Record t := {
  allowedUserFields : list string;
  authModelAccessor : string;
  credentialModelAccessor : string;
  authFields : AuthFields.t;
  cookie : Cookie.t;
  forgotPassword : ForgotPassword.Options;
  login : Login.Options;
  resetPassword : ResetPassword.Options;
  signup : Signup.Options;
  webAuthn : WebAuthn.t
}.
End Defs.
End DbAuthHandlerOptions.

(** ** The configuration built by [handler] *)

Section Handler.
Context `{IdType}.

(** [process.env], read when the closures run. *)
Variable env : ProcessEnv.

(** [cookieName], imported from [src/lib/auth]. *)
Variable cookieName : string.

(** [const url] of the forgot-password handler. *)
Definition url : string :=
  if strict_eq (NODE_ENV env) "development"
  then "http://localhost:8910"
  else "https://shepherdpro.com".

Definition forgotPasswordOptions : ForgotPassword.Options :=
  {| ForgotPassword.handler := fun user resetToken =>
       forget sendResetEmail
         {| ResetEmail.to := User.email user;
            ResetEmail.subject := "Reset your password";
            ResetEmail.resetLink :=
              url ++ "/reset-password?resetToken=" ++ resetToken |} ;;
       Return user;
     ForgotPassword.expires := 60 * 60 * 24;
     ForgotPassword.errors :=
       {| ForgotPassword.usernameNotFound := "Username not found";
          ForgotPassword.usernameRequired := "Username is required" |} |}.

Definition loginOptions : Login.Options :=
  {| Login.handler := fun user => user;
     Login.errors :=
       {| Login.usernameOrPasswordMissing :=
            "Both username and password are required";
          Login.usernameNotFound := "Username ${username} not found";
          Login.incorrectPassword := "Incorrect password for ${username}" |};
     Login.expires := 60 * 60 * 24 * 365 * 10 |}.

Definition resetPasswordOptions : ResetPassword.Options :=
  {| ResetPassword.handler := fun _user => true;
     ResetPassword.allowReusedPassword := true;
     ResetPassword.errors :=
       {| ResetPassword.resetTokenExpired := "resetToken is expired";
          ResetPassword.resetTokenInvalid := "resetToken is invalid";
          ResetPassword.resetTokenRequired := "resetToken is required";
          ResetPassword.reusedPassword := "Must choose a new password" |} |}.

(** [const userPlan] of the signup handler. *)
Definition userPlan : string :=
  if strict_eq (NODE_ENV env) "development"
  then "Alpha-USD-Monthly"
  else "alpha-usd-monthly".

(** [userAttributes?.name] *)
Definition userAttributes_name (a : SignupArgs.t) : option string :=
  option_map UserAttributes.name (SignupArgs.userAttributes a).

Definition signupOptions : Signup.Options :=
  {| Signup.handler := fun args =>
       key <- call generateAPIKey 32 ;;
       newAccount <- await db_account_create
         {| AccountCreate.apiKey := key |} ;;
       newUser <- await db_user_create
         {| UserCreate.email := SignupArgs.username args;
            UserCreate.hashedPassword := SignupArgs.hashedPassword args;
            UserCreate.salt := SignupArgs.salt args;
            UserCreate.name := userAttributes_name args;
            UserCreate.type := "OWNER";
            UserCreate.accountId := Account.id newAccount |} ;;
       match newUser with
       | Some newUser =>
           forget sendWelcomeEmail
             {| WelcomeEmail.to := SignupArgs.username args;
                WelcomeEmail.subject := "Welcome to Shepherd Pro" |} ;;
           forget createSubscription
             {| Subscription.status := "IN_TRIAL";
                Subscription.type := userPlan;
                Subscription.userId := User.id newUser |} ;;
           forget phDefaultClient_capture
             {| Capture.distinctId :=
                  "shepherd-user-" ++ show_id (User.id newUser);
                Capture.event := "Shepherd Signup";
                Capture.properties :=
                  {| Capture.dollar_set :=
                       {| Capture.email := SignupArgs.username args;
                          Capture.name := userAttributes_name args;
                          Capture.plan := userPlan |} |};
                Capture.groups :=
                  {| Capture.account := Account.id newAccount |} |} ;;
           Return (Some newUser)
       | None => Return None
       end;
     Signup.passwordValidation := fun _password => true;
     Signup.errors :=
       {| Signup.fieldMissing := "${field} is required";
          Signup.usernameTaken := "Username `${username}` already in use" |} |}.

Definition cookie : Cookie.t :=
  {| Cookie.attributes :=
       {| Cookie.HttpOnly := true;
          Cookie.Path := "/";
          Cookie.SameSite := "Strict";
          Cookie.Secure :=
            if strict_neq (NODE_ENV env) "development" then true else false |};
     Cookie.name := cookieName |}.

Definition webAuthn : WebAuthn.t :=
  {| WebAuthn.enabled := false;
     WebAuthn.expires := 60 * 60 * 24 * 365 * 10;
     WebAuthn.name := "Shepherd Application";
     WebAuthn.domain :=
       if strict_eq (NODE_ENV env) "development"
       then "localhost"
       else "shepherdpro.com";
     WebAuthn.origin :=
       if strict_eq (NODE_ENV env) "development"
       then "http://localhost:8910"
       else "https://shepherdpro.com";
     WebAuthn.type := "platform";
     WebAuthn.timeout := 60000;
     WebAuthn.credentialFields :=
       {| WebAuthn.id := "id";
          WebAuthn.userId := "userId";
          WebAuthn.publicKey := "publicKey";
          WebAuthn.transports := "transports";
          WebAuthn.counter := "counter" |} |}.

(** The options [handler] gives to [DbAuthHandler]. *)
Definition authHandlerOptions : DbAuthHandlerOptions.t :=
  {| DbAuthHandlerOptions.allowedUserFields := ["id"; "email"];
     DbAuthHandlerOptions.authModelAccessor := "user";
     DbAuthHandlerOptions.credentialModelAccessor := "userCredential";
     DbAuthHandlerOptions.authFields :=
       {| AuthFields.id := "id";
          AuthFields.username := "email";
          AuthFields.hashedPassword := "hashedPassword";
          AuthFields.salt := "salt";
          AuthFields.resetToken := "resetToken";
          AuthFields.resetTokenExpiresAt := "resetTokenExpiresAt" |};
     DbAuthHandlerOptions.cookie := cookie;
     DbAuthHandlerOptions.forgotPassword := forgotPasswordOptions;
     DbAuthHandlerOptions.login := loginOptions;
     DbAuthHandlerOptions.resetPassword := resetPasswordOptions;
     DbAuthHandlerOptions.signup := signupOptions;
     DbAuthHandlerOptions.webAuthn := webAuthn |}.

End Handler.

(** ** Reading the call log *)

Section CallLog.
Context `{IdType}.

Definition is_account_create (c : Call) : bool :=
  match c with db_account_create _ => true | _ => false end.

Definition is_user_create (c : Call) : bool :=
  match c with db_user_create _ => true | _ => false end.

Definition is_db_write (c : Call) : bool :=
  is_account_create c || is_user_create c.

Definition is_reset_email (c : Call) : bool :=
  match c with sendResetEmail _ => true | _ => false end.

Definition is_welcome_email (c : Call) : bool :=
  match c with sendWelcomeEmail _ => true | _ => false end.

Definition is_subscription (c : Call) : bool :=
  match c with createSubscription _ => true | _ => false end.

Definition is_capture (c : Call) : bool :=
  match c with phDefaultClient_capture _ => true | _ => false end.

(** The calls whose promise the handlers drop. *)
Definition is_side_effect (c : Call) : bool :=
  is_reset_email c || is_welcome_email c || is_subscription c || is_capture c.

Definition count (p : Call -> bool) (l : list Call) : nat :=
  List.length (filter p l).

Definition opt_string (o : option string) : list string :=
  match o with Some s => [s] | None => [] end.

(** Every string found in the argument of a call, identifiers as a template
    literal prints them. *)
Definition payload_strings (c : Call) : list string :=
  match c with
  | generateAPIKey _ => []
  | db_account_create d => [AccountCreate.apiKey d]
  | db_user_create d =>
      [UserCreate.email d; UserCreate.hashedPassword d; UserCreate.salt d]
      ++ opt_string (UserCreate.name d)
      ++ [UserCreate.type d; show_id (UserCreate.accountId d)]
  | sendResetEmail i =>
      [ResetEmail.to i; ResetEmail.subject i; ResetEmail.resetLink i]
  | sendWelcomeEmail i => [WelcomeEmail.to i; WelcomeEmail.subject i]
  | createSubscription i =>
      [Subscription.status i; Subscription.type i;
       show_id (Subscription.userId i)]
  | phDefaultClient_capture m =>
      let s := Capture.dollar_set (Capture.properties m) in
      [Capture.distinctId m; Capture.event m; Capture.email s]
      ++ opt_string (Capture.name s)
      ++ [Capture.plan s; show_id (Capture.account (Capture.groups m))]
  end.

(** The call has [s] as one of the values of its argument. *)
Definition carries (s : string) (c : Call) : Prop :=
  In s (payload_strings c).

(** Two signup argument objects that differ at most in
    [userAttributes.plan]. *)
Definition same_but_plan (a b : SignupArgs.t) : Prop :=
  SignupArgs.username a = SignupArgs.username b /\
  SignupArgs.hashedPassword a = SignupArgs.hashedPassword b /\
  SignupArgs.salt a = SignupArgs.salt b /\
  option_map UserAttributes.name (SignupArgs.userAttributes a) =
  option_map UserAttributes.name (SignupArgs.userAttributes b).

(** Two sets of collaborators that answer alike, except that the calls whose
    promise is dropped may settle differently. *)
Definition same_but_side_effects {W : Type} (s1 s2 : Services W) : Prop :=
  forall (c : Call) (w : W), is_side_effect c = false -> s1 c w = s2 c w.

End CallLog.

(** ** An in-memory double of the collaborators *)

(** Modelled from the spec: the Prisma client [src/lib/db],
    [generateAPIKey] of [src/lib/utils], the email and subscription services
    and the PostHog client are imported by the file and not part of it.  The
    double keeps an account table and a user table with integer identifiers
    and unique emails, hands out numbered keys, and records the messages the
    services accepted.  With [down] set, the promises of the email and
    subscription services are rejected and captured events are lost; in
    [throwing] the chosen calls throw. *)
Module Mem.

#[local] Instance ids : IdType :=
  {| Id := Z; show_id := fun z => NilZero.string_of_int (Z.to_int z) |}.

Record World := {
  accounts : list Account.t;
  users : list User.t;
  nextId : Z;
  keysIssued : Z;
  delivered : list Call
}.

Definition empty : World :=
  {| accounts := []; users := []; nextId := 1; keysIssued := 0;
     delivered := [] |}.

Definition taken (email : string) (w : World) : bool :=
  existsb (fun u => String.eqb (User.email u) email) (users w).

(** A key of [n] characters ending in the number of keys issued so far. *)
Definition key (n : Z) (issued : Z) : string :=
  let s := show_id issued in
  string_of_list_ascii
    (repeat "k"%char (Z.to_nat n - String.length s)) ++ s.

Definition accept (c : Call) (w : World) : World :=
  {| accounts := accounts w; users := users w; nextId := nextId w;
     keysIssued := keysIssued w; delivered := delivered w ++ [c] |}.

Definition deliver (down : bool) (c : Call) (w : World)
  : Outcome (Promise unit) * World :=
  if down then (Fulfilled (Rejected "service unavailable"), w)
  else (Fulfilled (Fulfilled tt), accept c w).

Definition enqueue (down : bool) (c : Call) (w : World)
  : Outcome unit * World :=
  if down then (Fulfilled tt, w) else (Fulfilled tt, accept c w).

Definition services (down : bool) : Services World :=
  fun c =>
    match c as c0 return World -> Outcome (Res c0) * World with
    | generateAPIKey n => fun w =>
        (Fulfilled (key n (keysIssued w)),
         {| accounts := accounts w; users := users w; nextId := nextId w;
            keysIssued := keysIssued w + 1; delivered := delivered w |})
    | db_account_create d => fun w =>
        let a := {| Account.id := nextId w;
                    Account.apiKey := AccountCreate.apiKey d |} in
        (Fulfilled a,
         {| accounts := accounts w ++ [a]; users := users w;
            nextId := nextId w + 1; keysIssued := keysIssued w;
            delivered := delivered w |})
    | db_user_create d => fun w =>
        if taken (UserCreate.email d) w
        then (Rejected "Unique constraint failed on the fields: (`email`)", w)
        else
          let u := {| User.id := nextId w;
                      User.email := UserCreate.email d;
                      User.hashedPassword := UserCreate.hashedPassword d;
                      User.salt := UserCreate.salt d;
                      User.name := UserCreate.name d;
                      User.type := UserCreate.type d;
                      User.accountId := UserCreate.accountId d |} in
          (Fulfilled (Some u),
           {| accounts := accounts w; users := users w ++ [u];
              nextId := nextId w + 1; keysIssued := keysIssued w;
              delivered := delivered w |})
    | sendResetEmail i => deliver down (sendResetEmail i)
    | sendWelcomeEmail i => deliver down (sendWelcomeEmail i)
    | createSubscription i => deliver down (createSubscription i)
    | phDefaultClient_capture m => enqueue down (phDefaultClient_capture m)
    end.

(** The services are up, except that the calls chosen by [p] throw. *)
Definition throwing (p : Call -> bool) : Services World :=
  fun c w =>
    if p c then (Rejected "service unavailable", w) else services false c w.

Definition production : ProcessEnv :=
  {| NODE_ENV := Some "production"; POSTHOG_API_KEY := Some "phc_test" |}.

Definition development : ProcessEnv :=
  {| NODE_ENV := Some "development"; POSTHOG_API_KEY := None |}.

Definition ada : SignupArgs.t :=
  {| SignupArgs.username := "ada@example.com";
     SignupArgs.hashedPassword := "5f4dcc3b5aa765d6";
     SignupArgs.salt := "a1b2c3";
     SignupArgs.userAttributes :=
       Some {| UserAttributes.name := "Ada";
               UserAttributes.plan := Some "enterprise" |} |}.

Definition ada_no_plan : SignupArgs.t :=
  {| SignupArgs.username := "ada@example.com";
     SignupArgs.hashedPassword := "5f4dcc3b5aa765d6";
     SignupArgs.salt := "a1b2c3";
     SignupArgs.userAttributes :=
       Some {| UserAttributes.name := "Ada";
               UserAttributes.plan := None |} |}.

Definition ada_account : Account.t :=
  {| Account.id := 1; Account.apiKey := key 32 0 |}.

Definition ada_user : User.t :=
  {| User.id := 2;
     User.email := "ada@example.com";
     User.hashedPassword := "5f4dcc3b5aa765d6";
     User.salt := "a1b2c3";
     User.name := Some "Ada";
     User.type := "OWNER";
     User.accountId := 1 |}.

(** The world once [ada] has signed up from [empty]. *)
Definition after_signup : World :=
  {| accounts := [ada_account]; users := [ada_user]; nextId := 3;
     keysIssued := 1; delivered := [] |}.

(** [ada] signs up in production, starting from [empty]. *)
Definition signup_ada (down : bool) : Run World (option User.t) :=
  run (services down) (Signup.handler (signupOptions production) ada) empty.

(** What the signup handler gives to [db.user.create] for [ada]. *)
Definition ada_user_data : UserCreate.data :=
  {| UserCreate.email := "ada@example.com";
     UserCreate.hashedPassword := "5f4dcc3b5aa765d6";
     UserCreate.salt := "a1b2c3";
     UserCreate.name := Some "Ada";
     UserCreate.type := "OWNER";
     UserCreate.accountId := 1 |}.

(** What the signup handler gives to [createSubscription] for [ada]. *)
Definition ada_subscription : Subscription.input :=
  {| Subscription.status := "IN_TRIAL";
     Subscription.type := "alpha-usd-monthly";
     Subscription.userId := 2 |}.

End Mem.

(** ** More readings of the call log *)

Section Readings.
Context `{IdType}.

Definition is_key_generation (c : Call) : bool :=
  match c with generateAPIKey _ => true | _ => false end.

(** The reason a failed entry carries. *)
Definition rejection (e : Entry) : option string :=
  match e with
  | Settled _ (Rejected reason) => Some reason
  | Settled _ (Fulfilled _) => None
  end.

(** The account a fulfilled [db.account.create] returned. *)
Definition created_account (e : Entry) : option Account.t :=
  match e with
  | Settled (db_account_create _) (Fulfilled a) => Some a
  | _ => None
  end.

(** The reason a rejected [db.user.create] gave. *)
Definition user_create_rejected (e : Entry) : option string :=
  match e with
  | Settled (db_user_create _) (Rejected reason) => Some reason
  | _ => None
  end.

(** The promise a dropped call handed back was rejected later. *)
Definition promise_rejected (e : Entry) : bool :=
  match e with
  | Settled (sendResetEmail _) (Fulfilled (Rejected _)) => true
  | Settled (sendWelcomeEmail _) (Fulfilled (Rejected _)) => true
  | Settled (createSubscription _) (Fulfilled (Rejected _)) => true
  | _ => false
  end.

(** None of the dropped calls of the run threw: each handed something
    back. *)
Definition dropped_calls_returned {W R : Type} (r : Run W R) : Prop :=
  forall e : Entry,
    In e (log r) -> is_side_effect (call_of e) = true -> rejection e = None.

(** Collaborators whose [db.user.create] resolves with a falsy value, the
    case the signup handler tests with [if (newUser)]. *)
Definition falsy_user {W : Type} (svc : Services W) : Services W :=
  fun c =>
    match c as c0 return W -> Outcome (Res c0) * W with
    | db_user_create _ => fun w => (Fulfilled None, w)
    | c0 => svc c0
    end.

End Readings.

(** ** The runs of the signup handler *)

Section Shapes.
Context `{IdType}.
Variable env : ProcessEnv.

Local Abbreviation account_data key := {| AccountCreate.apiKey := key |}.

Local Abbreviation user_data args newAccount :=
  {| UserCreate.email := SignupArgs.username args;
     UserCreate.hashedPassword := SignupArgs.hashedPassword args;
     UserCreate.salt := SignupArgs.salt args;
     UserCreate.name := userAttributes_name args;
     UserCreate.type := "OWNER";
     UserCreate.accountId := Account.id newAccount |}.

Local Abbreviation welcome args :=
  {| WelcomeEmail.to := SignupArgs.username args;
     WelcomeEmail.subject := "Welcome to Shepherd Pro" |}.

Local Abbreviation trial newUser :=
  {| Subscription.status := "IN_TRIAL";
     Subscription.type := userPlan env;
     Subscription.userId := User.id newUser |}.

Local Abbreviation signup_event args newAccount newUser :=
  {| Capture.distinctId := "shepherd-user-" ++ show_id (User.id newUser);
     Capture.event := "Shepherd Signup";
     Capture.properties :=
       {| Capture.dollar_set :=
            {| Capture.email := SignupArgs.username args;
               Capture.name := userAttributes_name args;
               Capture.plan := userPlan env |} |};
     Capture.groups := {| Capture.account := Account.id newAccount |} |}.

(** The eight ways a run of the signup handler can go: the key generation
    throws, the account insert is rejected, the user insert is rejected, the
    user insert yields a falsy value, the welcome email, the subscription or
    the analytics call throws, or all calls are made and the user is
    returned. *)
Inductive signup_shape (args : SignupArgs.t)
  : Outcome (option User.t) -> list Entry -> Prop :=
| shape_no_key (e : string) :
    signup_shape args (Rejected e)
      [Settled (generateAPIKey 32) (Rejected e)]
| shape_no_account (key e : string) :
    signup_shape args (Rejected e)
      [Settled (generateAPIKey 32) (Fulfilled key);
       Settled (db_account_create (account_data key)) (Rejected e)]
| shape_user_rejected (key : string) (a : Account.t) (e : string) :
    signup_shape args (Rejected e)
      [Settled (generateAPIKey 32) (Fulfilled key);
       Settled (db_account_create (account_data key)) (Fulfilled a);
       Settled (db_user_create (user_data args a)) (Rejected e)]
| shape_falsy_user (key : string) (a : Account.t) :
    signup_shape args (Fulfilled None)
      [Settled (generateAPIKey 32) (Fulfilled key);
       Settled (db_account_create (account_data key)) (Fulfilled a);
       Settled (db_user_create (user_data args a)) (Fulfilled None)]
| shape_welcome_threw (key : string) (a : Account.t) (u : User.t)
    (e : string) :
    signup_shape args (Rejected e)
      [Settled (generateAPIKey 32) (Fulfilled key);
       Settled (db_account_create (account_data key)) (Fulfilled a);
       Settled (db_user_create (user_data args a)) (Fulfilled (Some u));
       Settled (sendWelcomeEmail (welcome args)) (Rejected e)]
| shape_subscription_threw (key : string) (a : Account.t) (u : User.t)
    (p1 : Promise unit) (e : string) :
    signup_shape args (Rejected e)
      [Settled (generateAPIKey 32) (Fulfilled key);
       Settled (db_account_create (account_data key)) (Fulfilled a);
       Settled (db_user_create (user_data args a)) (Fulfilled (Some u));
       Settled (sendWelcomeEmail (welcome args)) (Fulfilled p1);
       Settled (createSubscription (trial u)) (Rejected e)]
| shape_capture_threw (key : string) (a : Account.t) (u : User.t)
    (p1 p2 : Promise unit) (e : string) :
    signup_shape args (Rejected e)
      [Settled (generateAPIKey 32) (Fulfilled key);
       Settled (db_account_create (account_data key)) (Fulfilled a);
       Settled (db_user_create (user_data args a)) (Fulfilled (Some u));
       Settled (sendWelcomeEmail (welcome args)) (Fulfilled p1);
       Settled (createSubscription (trial u)) (Fulfilled p2);
       Settled (phDefaultClient_capture (signup_event args a u)) (Rejected e)]
| shape_created (key : string) (a : Account.t) (u : User.t)
    (p1 p2 : Promise unit) :
    signup_shape args (Fulfilled (Some u))
      [Settled (generateAPIKey 32) (Fulfilled key);
       Settled (db_account_create (account_data key)) (Fulfilled a);
       Settled (db_user_create (user_data args a)) (Fulfilled (Some u));
       Settled (sendWelcomeEmail (welcome args)) (Fulfilled p1);
       Settled (createSubscription (trial u)) (Fulfilled p2);
       Settled (phDefaultClient_capture (signup_event args a u))
               (Fulfilled tt)].

End Shapes.

(** More values for runs on the in-memory double. *)
Module MemRuns.

#[local] Existing Instance Mem.ids.

(** What the signup handler gives to [phDefaultClient.capture] for
    [Mem.ada] in production. *)
Definition ada_event : Capture.message :=
  {| Capture.distinctId := "shepherd-user-2";
     Capture.event := "Shepherd Signup";
     Capture.properties :=
       {| Capture.dollar_set :=
            {| Capture.email := "ada@example.com";
               Capture.name := Some "Ada";
               Capture.plan := "alpha-usd-monthly" |} |};
     Capture.groups := {| Capture.account := 1 |} |}.

(** [Mem.ada] signs up again once she has an account. *)
Definition signup_ada_again : Run Mem.World (option User.t) :=
  run (Mem.services false)
      (Signup.handler (signupOptions Mem.production) Mem.ada)
      Mem.after_signup.

(** [Mem.ada] signs up against a [db.user.create] that yields a falsy
    value. *)
Definition signup_ada_falsy : Run Mem.World (option User.t) :=
  run (falsy_user (Mem.services false))
      (Signup.handler (signupOptions Mem.production) Mem.ada)
      Mem.empty.

(** [Mem.ada] signs up while the calls chosen by [p] throw. *)
Definition signup_ada_throwing (p : Call -> bool)
  : Run Mem.World (option User.t) :=
  run (Mem.throwing p)
      (Signup.handler (signupOptions Mem.production) Mem.ada) Mem.empty.

(** [Mem.ada] asks for a reset link with token [tok123]; the email service
    is up, or its promise is rejected ([down]), or it throws. *)
Definition forgot_ada (down : bool) : Run Mem.World User.t :=
  run (Mem.services down)
      (ForgotPassword.handler (forgotPasswordOptions Mem.development)
                              Mem.ada_user "tok123")
      Mem.after_signup.

Definition forgot_ada_throwing : Run Mem.World User.t :=
  run (Mem.throwing is_reset_email)
      (ForgotPassword.handler (forgotPasswordOptions Mem.development)
                              Mem.ada_user "tok123")
      Mem.after_signup.

Definition ada_reset_email : ResetEmail.input :=
  {| ResetEmail.to := "ada@example.com";
     ResetEmail.subject := "Reset your password";
     ResetEmail.resetLink :=
       "http://localhost:8910/reset-password?resetToken=tok123" |}.

End MemRuns.

(** [NODE_ENV] is not set. *)
Definition unset_env : ProcessEnv :=
  {| NODE_ENV := None; POSTHOG_API_KEY := None |}.

(** * Properties *)

(** From a hypothesis that some entry of an explicit log reads as a value,
    keep the entries that do. *)
Ltac find_entry Hu :=
  destruct Hu as [?e0 [?Hin ?Hc]];
  match goal with
  | Hin : In ?e _, Hc : _ = Some _ |- _ =>
      cbn in Hin;
      repeat (destruct Hin as [Hin | Hin];
              [subst e; cbn in Hc; try discriminate Hc | ]);
      try contradiction
  end.

(** A log that shows a dropped call throwing contradicts the hypothesis
    that the dropped calls returned. *)
Ltac threw Hret :=
  exfalso;
  first
    [ discriminate
        (Hret _ (or_intror (or_intror (or_intror (or_introl eq_refl))))
              eq_refl)
    | discriminate
        (Hret _ (or_intror (or_intror (or_intror (or_intror
                   (or_introl eq_refl))))) eq_refl)
    | discriminate
        (Hret _ (or_intror (or_intror (or_intror (or_intror (or_intror
                   (or_introl eq_refl)))))) eq_refl) ].

Ltac pick H :=
  cbn in H;
  repeat (destruct H as [H | H]; [try discriminate H | ]);
  try contradiction.

(** Every entry of an explicit log handed something back. *)
Ltac all_returned :=
  let e := fresh "e" in
  let Hin := fresh "Hin" in
  let Hs := fresh "Hs" in
  intros e Hin Hs; cbn in Hin;
  repeat (destruct Hin as [Hin | Hin];
          [subst e; first [reflexivity | discriminate Hs] | ]);
  contradiction.

Section Properties.
Context `{IdType} {W : Type}.
Variable svc : Services W.
Variable env : ProcessEnv.

(** ** The signup handler, step by step *)

(** The argument the signup handler gives to [db.user.create]. *)
Local Abbreviation user_data args newAccount :=
  {| UserCreate.email := SignupArgs.username args;
     UserCreate.hashedPassword := SignupArgs.hashedPassword args;
     UserCreate.salt := SignupArgs.salt args;
     UserCreate.name := userAttributes_name args;
     UserCreate.type := "OWNER";
     UserCreate.accountId := Account.id newAccount |}.

Local Abbreviation welcome args :=
  {| WelcomeEmail.to := SignupArgs.username args;
     WelcomeEmail.subject := "Welcome to Shepherd Pro" |}.

Local Abbreviation trial newUser :=
  {| Subscription.status := "IN_TRIAL";
     Subscription.type := userPlan env;
     Subscription.userId := User.id newUser |}.

Local Abbreviation signup_event args newAccount newUser :=
  {| Capture.distinctId := "shepherd-user-" ++ show_id (User.id newUser);
     Capture.event := "Shepherd Signup";
     Capture.properties :=
       {| Capture.dollar_set :=
            {| Capture.email := SignupArgs.username args;
               Capture.name := userAttributes_name args;
               Capture.plan := userPlan env |} |};
     Capture.groups := {| Capture.account := Account.id newAccount |} |}.

(** Every run of the signup handler has one of the shapes. *)
Lemma signup_run_shape (args : SignupArgs.t) (w : W) :
  let r := run svc (Signup.handler (signupOptions env) args) w in
  signup_shape env args (outcome r) (log r).
Proof.
  cbv zeta. cbn [run Signup.handler signupOptions].
  destruct (svc (generateAPIKey 32) w) as [[key | e1] w1];
    [ | apply shape_no_key].
  destruct (svc (db_account_create _) w1)
    as [[a | e2] w2]; [ | apply shape_no_account].
  destruct (svc (db_user_create _) w2)
    as [[[u | ] | e3] w3];
    [ | apply shape_falsy_user | apply shape_user_rejected].
  cbn [run].
  destruct (svc (sendWelcomeEmail _) w3) as [[p1 | e4] w4];
    [ | apply shape_welcome_threw].
  destruct (svc (createSubscription _) w4) as [[p2 | e5] w5];
    [ | apply shape_subscription_threw].
  destruct (svc (phDefaultClient_capture _) w5) as [[[] | e6] w6];
    [apply shape_created | apply shape_capture_threw].
Qed.

Ltac shapes args w :=
  generalize (signup_run_shape args w); cbv zeta;
  generalize (run svc (Signup.handler (signupOptions env) args) w);
  intros [o wd l] S;
  unfold calls, user_created, dropped_calls_returned, count;
  cbn [outcome log world] in *.

(** When the store accepts the two inserts, the user is created, whatever
    the later calls do; when moreover none of these throws, the handler
    returns the user after the six calls. *)
Lemma signup_run_created (args : SignupArgs.t) (w w1 w2 w3 : W)
    (key : string) (newAccount : Account.t) (newUser : User.t) :
  svc (generateAPIKey 32) w = (Fulfilled key, w1) ->
  svc (db_account_create {| AccountCreate.apiKey := key |}) w1
    = (Fulfilled newAccount, w2) ->
  svc (db_user_create (user_data args newAccount)) w2
    = (Fulfilled (Some newUser), w3) ->
  let r := run svc (Signup.handler (signupOptions env) args) w in
  user_created r newUser /\
  firstn 3 (log r) =
    [Settled (generateAPIKey 32) (Fulfilled key);
     Settled (db_account_create {| AccountCreate.apiKey := key |})
             (Fulfilled newAccount);
     Settled (db_user_create (user_data args newAccount))
             (Fulfilled (Some newUser))] /\
  (dropped_calls_returned r ->
   outcome r = Fulfilled (Some newUser) /\
   calls r =
     [generateAPIKey 32;
      db_account_create {| AccountCreate.apiKey := key |};
      db_user_create (user_data args newAccount);
      sendWelcomeEmail (welcome args);
      createSubscription (trial newUser);
      phDefaultClient_capture (signup_event args newAccount newUser)]).
Proof.
  intros E1 E2 E3 r. subst r.
  unfold user_created, dropped_calls_returned, calls.
  cbn [run Signup.handler signupOptions]. rewrite E1, E2, E3. cbn [run].
  destruct (svc (sendWelcomeEmail _) w3) as [[p1 | e4] w4].
  2: { cbn [logged log outcome]. split; [ | split; [reflexivity | ]].
       - eexists. split; [right; right; left; reflexivity | reflexivity].
       - intros Hret. threw Hret. }
  destruct (svc (createSubscription _) w4) as [[p2 | e5] w5].
  2: { cbn [logged log outcome]. split; [ | split; [reflexivity | ]].
       - eexists. split; [right; right; left; reflexivity | reflexivity].
       - intros Hret. threw Hret. }
  destruct (svc (phDefaultClient_capture _) w5) as [[x3 | e6] w6].
  2: { cbn [logged log outcome]. split; [ | split; [reflexivity | ]].
       - eexists. split; [right; right; left; reflexivity | reflexivity].
       - intros Hret. threw Hret. }
  cbn [logged log outcome]. split; [ | split; [reflexivity | ]].
  - eexists. split; [right; right; left; reflexivity | reflexivity].
  - intros _. split; reflexivity.
Qed.

(** When a user was created, the three calls before it went through. *)
Lemma signup_user_created_inv (args : SignupArgs.t) (w : W) (newUser : User.t) :
  user_created (run svc (Signup.handler (signupOptions env) args) w) newUser ->
  exists (key : string) (w1 : W) (newAccount : Account.t) (w2 w3 : W),
    svc (generateAPIKey 32) w = (Fulfilled key, w1) /\
    svc (db_account_create {| AccountCreate.apiKey := key |}) w1
      = (Fulfilled newAccount, w2) /\
    svc (db_user_create (user_data args newAccount)) w2
      = (Fulfilled (Some newUser), w3).
Proof.
  intros Hu. unfold user_created in Hu.
  cbn [run Signup.handler signupOptions] in Hu.
  destruct (svc (generateAPIKey 32) w) as [[key | e1] w1] eqn:E1;
    [ | find_entry Hu].
  destruct (svc (db_account_create {| AccountCreate.apiKey := key |}) w1)
    as [[newAccount | e2] w2] eqn:E2; [ | find_entry Hu].
  destruct (svc (db_user_create (user_data args newAccount)) w2)
    as [[[u | ] | e3] w3] eqn:E3; [ | find_entry Hu | find_entry Hu].
  assert (u = newUser) as ->.
  { cbn [run] in Hu.
    destruct (svc (sendWelcomeEmail _) w3) as [[p1 | e4] w4];
      [ | find_entry Hu; congruence].
    destruct (svc (createSubscription _) w4) as [[p2 | e5] w5];
      [ | find_entry Hu; congruence].
    destruct (svc (phDefaultClient_capture _) w5) as [[x3 | e6] w6];
      find_entry Hu; congruence. }
  exists key, w1, newAccount, w2, w3. auto.
Qed.

Lemma strict_eq_true (v : option string) (s : string) :
  strict_eq v s = true <-> v = Some s.
Proof.
  destruct v as [x | ]; cbn.
  - rewrite String.eqb_eq. split; congruence.
  - split; discriminate.
Qed.

Lemma strict_eq_false (v : option string) (s : string) :
  strict_eq v s = false <-> v <> Some s.
Proof.
  rewrite <- strict_eq_true. destruct (strict_eq v s); split; congruence.
Qed.

(** ** Signup *)

(** C1, amended.  For every signup invocation whose new user the store
    accepts (the username is fresh), the handler first generates an API key
    with [generateAPIKey(32)], creates one account record holding that key,
    then creates one user record whose email is the submitted username, whose
    hashedPassword and salt are the submitted values, whose type is the
    literal [OWNER] in capitals, and whose accountId is the id of the account
    just created.  These are the only two database writes of the run. *)
Theorem signup_creates_account_then_user
    (args : SignupArgs.t) (w : W) (newUser : User.t) :
  let r := run svc (Signup.handler (signupOptions env) args) w in
  user_created r newUser ->
  exists (key : string) (newAccount : Account.t) (side : list Entry),
    let account_data := {| AccountCreate.apiKey := key |} in
    let data :=
      {| UserCreate.email := SignupArgs.username args;
         UserCreate.hashedPassword := SignupArgs.hashedPassword args;
         UserCreate.salt := SignupArgs.salt args;
         UserCreate.name := userAttributes_name args;
         UserCreate.type := "OWNER";
         UserCreate.accountId := Account.id newAccount |} in
    log r =
      Settled (generateAPIKey 32) (Fulfilled key)
      :: Settled (db_account_create account_data) (Fulfilled newAccount)
      :: Settled (db_user_create data) (Fulfilled (Some newUser))
      :: side /\
    filter is_db_write (calls r) =
      [db_account_create account_data; db_user_create data] /\
    count is_account_create (calls r) = 1%nat /\
    count is_user_create (calls r) = 1%nat.
Proof.
  shapes args w. intros Hu. destruct S; find_entry Hu.
  all: injection Hc as ->.
  all: exists key, a; eexists; cbv zeta; split; [reflexivity | ].
  all: repeat split; reflexivity.
Qed.

(** C2, amended.  For every signup invocation in which user creation
    succeeds and none of the three calls that follow throws, the handler
    issues exactly one welcome-email call addressed to the submitted email,
    exactly one subscription-creation call, which carries the id of the
    created user, the status [IN_TRIAL] and the plan identifier, and exactly
    one analytics-capture call carrying the submitted email, in this order,
    and returns the created user. *)
Theorem signup_side_effects_once
    (args : SignupArgs.t) (w : W) (newUser : User.t) :
  let r := run svc (Signup.handler (signupOptions env) args) w in
  user_created r newUser ->
  dropped_calls_returned r ->
  outcome r = Fulfilled (Some newUser) /\
  (exists newAccount : Account.t,
     filter is_side_effect (calls r) =
       [sendWelcomeEmail
          {| WelcomeEmail.to := SignupArgs.username args;
             WelcomeEmail.subject := "Welcome to Shepherd Pro" |};
        createSubscription
          {| Subscription.status := "IN_TRIAL";
             Subscription.type := userPlan env;
             Subscription.userId := User.id newUser |};
        phDefaultClient_capture
          {| Capture.distinctId :=
               "shepherd-user-" ++ show_id (User.id newUser);
             Capture.event := "Shepherd Signup";
             Capture.properties :=
               {| Capture.dollar_set :=
                    {| Capture.email := SignupArgs.username args;
                       Capture.name := userAttributes_name args;
                       Capture.plan := userPlan env |} |};
             Capture.groups :=
               {| Capture.account := Account.id newAccount |} |}]) /\
  count is_welcome_email (calls r) = 1%nat /\
  count is_subscription (calls r) = 1%nat /\
  count is_capture (calls r) = 1%nat /\
  (forall c : Call,
     In c (calls r) -> is_welcome_email c || is_capture c = true ->
     carries (SignupArgs.username args) c).
Proof.
  shapes args w. intros Hu Hret. destruct S; find_entry Hu.
  all: try (threw Hret).
  injection Hc as ->.
  split; [reflexivity | ].
  split; [exists a; reflexivity | ].
  repeat (split; [reflexivity | ]).
  intros c Hin Hcar. cbn [map call_of] in Hin.
  destruct Hin as [<- | [<- | [<- | [<- | [<- | [<- | []]]]]]];
    try discriminate Hcar; unfold carries; cbn; auto.
Qed.

(** C10.  Two signup invocations that differ only in [userAttributes.plan]
    run alike: same outcome, same world, same calls.  The plan attribute is
    never read; the [type] of every subscription the handler creates and the
    [plan] of every event it captures is [userPlan], which is
    [Alpha-USD-Monthly] when [NODE_ENV] is [development] and
    [alpha-usd-monthly] otherwise. *)
Theorem signup_plan_attribute_unread (a b : SignupArgs.t) (w : W) :
  same_but_plan a b ->
  run svc (Signup.handler (signupOptions env) a) w
    = run svc (Signup.handler (signupOptions env) b) w /\
  (forall i : Subscription.input,
     In (createSubscription i)
        (calls (run svc (Signup.handler (signupOptions env) a) w)) ->
     Subscription.type i = userPlan env) /\
  (forall m : Capture.message,
     In (phDefaultClient_capture m)
        (calls (run svc (Signup.handler (signupOptions env) a) w)) ->
     Capture.plan (Capture.dollar_set (Capture.properties m)) = userPlan env) /\
  (NODE_ENV env = Some "development" -> userPlan env = "Alpha-USD-Monthly") /\
  (NODE_ENV env <> Some "development" -> userPlan env = "alpha-usd-monthly").
Proof.
  intros (Hu & Hp & Hs & Hn). split; [ | split; [ | split; [ | split]]].
  - cbn [Signup.handler signupOptions]. unfold userAttributes_name.
    rewrite Hu, Hp, Hs, Hn. reflexivity.
  - intros i. shapes a w. intros Hin. destruct S; pick Hin.
    all: injection Hin as <-; reflexivity.
  - intros m. shapes a w. intros Hin. destruct S; pick Hin.
    all: injection Hin as <-; reflexivity.
  - intros E. unfold userPlan. apply strict_eq_true in E. rewrite E.
    reflexivity.
  - intros E. unfold userPlan. apply strict_eq_false in E. rewrite E.
    reflexivity.
Qed.

End Properties.

(** ** The other callbacks and the settings *)

Section Callbacks.
Context `{IdType} {W : Type}.
Variable svc : Services W.
Variable env : ProcessEnv.

(** C4, amended.  For every user and reset token, the forgot-password
    handler issues exactly one [sendResetEmail] call, to the user's email,
    whose link is the base URL of the environment followed by
    [/reset-password?resetToken=] and the token.  It returns the user it was
    given exactly when that call hands its promise back, however the promise
    settles; when the call throws, the handler fails with the same reason. *)
Theorem forgot_password_returns_user_and_sends_link
    (user : User.t) (resetToken : string) (w : W) :
  let r :=
    run svc (ForgotPassword.handler (forgotPasswordOptions env) user resetToken)
        w in
  calls r =
    [sendResetEmail
       {| ResetEmail.to := User.email user;
          ResetEmail.subject := "Reset your password";
          ResetEmail.resetLink :=
            url env ++ "/reset-password?resetToken=" ++ resetToken |}] /\
  count is_reset_email (calls r) = 1%nat /\
  (outcome r = Fulfilled user <-> dropped_calls_returned r) /\
  (forall reason : string,
     outcome r = Rejected reason <->
     exists e, In e (log r) /\ rejection e = Some reason) /\
  (NODE_ENV env = Some "development" -> url env = "http://localhost:8910") /\
  (NODE_ENV env <> Some "development" -> url env = "https://shepherdpro.com").
Proof.
  cbv zeta. unfold dropped_calls_returned, calls, count.
  cbn [run ForgotPassword.handler forgotPasswordOptions].
  destruct (svc _ w) as [[p | e] w']; cbn [logged log outcome run map call_of].
  - split; [reflexivity | ]. split; [reflexivity | ].
    split; [ | split; [ | split]].
    + split; [intros _ | reflexivity].
      intros e0 [<- | []] _. reflexivity.
    + intros reason. split; [discriminate | ].
      intros [e0 [[<- | []] Hr]]. discriminate Hr.
    + intros E. unfold url. apply strict_eq_true in E. rewrite E. reflexivity.
    + intros E. unfold url. apply strict_eq_false in E. rewrite E.
      reflexivity.
  - split; [reflexivity | ]. split; [reflexivity | ].
    split; [ | split; [ | split]].
    + split; [discriminate | ].
      intros Hret. discriminate (Hret _ (or_introl eq_refl) eq_refl).
    + intros reason. split.
      * intros E. injection E as ->. eexists.
        split; [left; reflexivity | reflexivity].
      * intros [e0 [[<- | []] Hr]]. cbn in Hr. congruence.
    + intros E. unfold url. apply strict_eq_true in E. rewrite E. reflexivity.
    + intros E. unfold url. apply strict_eq_false in E. rewrite E.
      reflexivity.
Qed.

(** C5.  The reset-password handler returns [true] for every user, and the
    options allow a reused password although they declare the
    reused-password error string. *)
Theorem reset_password_handler_true (user : User.t) :
  ResetPassword.handler resetPasswordOptions user = true /\
  ResetPassword.allowReusedPassword resetPasswordOptions = true /\
  ResetPassword.reusedPassword (ResetPassword.errors resetPasswordOptions)
    = "Must choose a new password".
Proof.
  repeat split.
Qed.

(** C6.  The password validation callback returns [true] for every string,
    the empty string included. *)
Theorem password_validation_accepts_all (password : string) :
  Signup.passwordValidation (signupOptions env) password = true /\
  Signup.passwordValidation (signupOptions env) EmptyString = true.
Proof.
  split; reflexivity.
Qed.

(** C7.  The login handler returns the user it is given. *)
Theorem login_handler_identity (user : User.t) :
  Login.handler loginOptions user = user.
Proof.
  reflexivity.
Qed.

(** C8.  The cookie attributes given to [DbAuthHandler] have HttpOnly true,
    Path [/] and SameSite [Strict]; Secure is true exactly when [NODE_ENV] is
    not [development], and false in development. *)
Theorem cookie_attributes_fixed (cookieName : string) :
  let a :=
    Cookie.attributes
      (DbAuthHandlerOptions.cookie (authHandlerOptions env cookieName)) in
  Cookie.HttpOnly a = true /\
  Cookie.Path a = "/" /\
  Cookie.SameSite a = "Strict" /\
  (Cookie.Secure a = true <-> NODE_ENV env <> Some "development") /\
  (Cookie.Secure a = false <-> NODE_ENV env = Some "development").
Proof.
  cbn. unfold strict_neq.
  repeat split; try reflexivity.
  - intros E. apply strict_eq_false. destruct (strict_eq _ _); [discriminate E | reflexivity].
  - intros E. apply strict_eq_false in E. rewrite E. reflexivity.
  - intros E. apply strict_eq_true. destruct (strict_eq _ _); [reflexivity | discriminate E].
  - intros E. apply strict_eq_true in E. rewrite E. reflexivity.
Qed.

(** C9.  The reset token is valid for 86400 seconds, that is 24 hours, and a
    login lasts 315360000 seconds, that is 10 years of 365 days. *)
Theorem expiry_values :
  ForgotPassword.expires (forgotPasswordOptions env) = 86400 /\
  ForgotPassword.expires (forgotPasswordOptions env) = 24 * 3600 /\
  Login.expires loginOptions = 315360000 /\
  Login.expires loginOptions = 10 * 365 * (24 * 3600).
Proof.
  repeat split.
Qed.

End Callbacks.

(** ** Signup and the dropped promises *)

(** C3, amended.  Take a signup invocation in which user creation succeeds
    and none of the welcome email, subscription and analytics calls throws,
    and let the promises they hand back settle in any other way, rejection
    included, without a throw either.  The handler still returns the created
    user, it issues the same calls, the user creation stands, and the run has
    the same two database writes and no later one. *)
Theorem signup_result_ignores_side_effects
    `{IdType} {W : Type} (svc svc' : Services W) (env : ProcessEnv)
    (args : SignupArgs.t) (w : W) (newUser : User.t) :
  let r := run svc (Signup.handler (signupOptions env) args) w in
  let r' := run svc' (Signup.handler (signupOptions env) args) w in
  same_but_side_effects svc svc' ->
  user_created r newUser ->
  dropped_calls_returned r ->
  dropped_calls_returned r' ->
  outcome r = Fulfilled (Some newUser) /\
  outcome r' = Fulfilled (Some newUser) /\
  calls r' = calls r /\
  user_created r' newUser /\
  count is_db_write (calls r') = 2%nat /\
  Forall (fun c => is_side_effect c = true) (skipn 3 (calls r')).
Proof.
  intros r r' Hsame Hu Hret Hret'. subst r r'.
  destruct (signup_user_created_inv svc env _ _ _ Hu)
    as (key & w1 & newAccount & w2 & w3 & E1 & E2 & E3).
  destruct (signup_run_created svc env _ _ _ _ _ _ _ _ E1 E2 E3)
    as (_ & _ & Hrun).
  destruct (Hrun Hret) as [Hout Hcalls].
  rewrite (Hsame (generateAPIKey 32) w eq_refl) in E1.
  rewrite (Hsame (db_account_create _) w1 eq_refl) in E2.
  rewrite (Hsame (db_user_create _) w2 eq_refl) in E3.
  destruct (signup_run_created svc' env _ _ _ _ _ _ _ _ E1 E2 E3)
    as (Hu' & _ & Hrun').
  destruct (Hrun' Hret') as [Hout' Hcalls'].
  rewrite Hcalls', Hcalls.
  repeat split; try assumption; try reflexivity.
  cbn. repeat constructor.
Qed.

(** ** Runs on the in-memory double *)

(** On the double a fresh username is enough for the user to be created:
    the run adds one account and one user to the tables, the user pointing
    to the account. *)
Lemma mem_fresh_username_creates
    (down : bool) (env : ProcessEnv) (args : SignupArgs.t) (w : Mem.World) :
  Mem.taken (SignupArgs.username args) w = false ->
  let r := run (Mem.services down) (Signup.handler (signupOptions env) args) w in
  exists (a : Account.t) (u : User.t),
    user_created r u /\
    Mem.accounts (world r) = (Mem.accounts w ++ [a])%list /\
    Mem.users (world r) = (Mem.users w ++ [u])%list /\
    User.email u = SignupArgs.username args /\
    User.hashedPassword u = SignupArgs.hashedPassword args /\
    User.salt u = SignupArgs.salt args /\
    User.type u = "OWNER" /\
    User.accountId u = Account.id a.
Proof.
  intros Hfresh r. subst r. unfold user_created.
  cbn [run Signup.handler signupOptions Mem.services].
  cbn [Mem.users Mem.accounts UserCreate.email].
  unfold Mem.taken in *. cbn [Mem.users]. rewrite Hfresh.
  destruct down; cbn; do 2 eexists;
    (split; [eexists; split; [right; right; left; reflexivity | reflexivity] | ]);
    repeat split; reflexivity.
Qed.

(** A signup where C1 as first stated fails: the username is fresh, the user
    is created, and the [type] given to [db.user.create] is not the
    lower-case [owner]. *)
Lemma signup_type_is_not_lowercase_owner :
  Mem.taken (SignupArgs.username Mem.ada) Mem.empty = false /\
  user_created (Mem.signup_ada false) Mem.ada_user /\
  ~ (forall d : UserCreate.data,
       In (db_user_create d) (calls (Mem.signup_ada false)) ->
       UserCreate.type d = "owner").
Proof.
  split; [reflexivity | ]. split.
  - eexists. split; [right; right; left; reflexivity | reflexivity].
  - intros Hall.
    assert (Hin : In (db_user_create Mem.ada_user_data)
                     (calls (Mem.signup_ada false)))
      by (right; right; left; reflexivity).
    specialize (Hall _ Hin). discriminate Hall.
Qed.

(** A signup where C2 as first stated fails: the user is created and the
    subscription-creation call does not carry the submitted email. *)
Lemma signup_subscription_call_lacks_email :
  user_created (Mem.signup_ada false) Mem.ada_user /\
  ~ (forall c : Call,
       In c (calls (Mem.signup_ada false)) -> is_side_effect c = true ->
       carries (SignupArgs.username Mem.ada) c).
Proof.
  split.
  - eexists. split; [right; right; left; reflexivity | reflexivity].
  - intros Hall.
    assert (Hin : In (createSubscription Mem.ada_subscription)
                     (calls (Mem.signup_ada false)))
      by (do 4 right; left; reflexivity).
    specialize (Hall _ Hin eq_refl). unfold carries in Hall. cbn in Hall.
    repeat (destruct Hall as [Hall | Hall]; [discriminate Hall | ]).
    exact Hall.
Qed.

Lemma signup_creates_account_then_user_witness :
  user_created (Mem.signup_ada false) Mem.ada_user /\
  filter is_db_write (calls (Mem.signup_ada false)) =
    [db_account_create {| AccountCreate.apiKey := Mem.key 32 0 |};
     db_user_create Mem.ada_user_data] /\
  count is_account_create (calls (Mem.signup_ada false)) = 1%nat /\
  count is_user_create (calls (Mem.signup_ada false)) = 1%nat.
Proof.
  assert (Hu : user_created (Mem.signup_ada false) Mem.ada_user).
  { eexists. split; [right; right; left; reflexivity | reflexivity]. }
  split; [exact Hu | ].
  destruct (signup_creates_account_then_user
              (Mem.services false) Mem.production Mem.ada Mem.empty
              Mem.ada_user Hu)
    as (key & newAccount & side & _ & _ & Hacc & Husr).
  split; [reflexivity | ]. split; [exact Hacc | exact Husr].
Defined.

(** A signup where C2 as first stated fails, in two ways.  With the services
    up, the user is created and the subscription-creation call does not
    carry the submitted email.  With a welcome-email service that throws,
    the user is created and the handler fails without a subscription or an
    analytics call. *)
Lemma signup_side_effects_claim_fails :
  (user_created (Mem.signup_ada false) Mem.ada_user /\
   ~ (forall c : Call,
        In c (calls (Mem.signup_ada false)) -> is_side_effect c = true ->
        carries (SignupArgs.username Mem.ada) c)) /\
  (user_created (MemRuns.signup_ada_throwing is_welcome_email) Mem.ada_user /\
   outcome (MemRuns.signup_ada_throwing is_welcome_email)
     = Rejected "service unavailable" /\
   count is_welcome_email
     (calls (MemRuns.signup_ada_throwing is_welcome_email)) = 1%nat /\
   count is_subscription
     (calls (MemRuns.signup_ada_throwing is_welcome_email)) = 0%nat /\
   count is_capture
     (calls (MemRuns.signup_ada_throwing is_welcome_email)) = 0%nat).
Proof.
  split; [exact signup_subscription_call_lacks_email | ].
  split; [ | repeat split].
  eexists. split; [right; right; left; reflexivity | reflexivity].
Qed.

Lemma signup_side_effects_once_witness :
  user_created (Mem.signup_ada true) Mem.ada_user /\
  dropped_calls_returned (Mem.signup_ada true) /\
  outcome (Mem.signup_ada true) = Fulfilled (Some Mem.ada_user) /\
  count is_welcome_email (calls (Mem.signup_ada true)) = 1%nat /\
  count is_subscription (calls (Mem.signup_ada true)) = 1%nat /\
  count is_capture (calls (Mem.signup_ada true)) = 1%nat.
Proof.
  assert (Hu : user_created (Mem.signup_ada true) Mem.ada_user).
  { eexists. split; [right; right; left; reflexivity | reflexivity]. }
  assert (Hret : dropped_calls_returned (Mem.signup_ada true)).
  { unfold dropped_calls_returned. all_returned. }
  split; [exact Hu | ]. split; [exact Hret | ].
  destruct (signup_side_effects_once
              (Mem.services true) Mem.production Mem.ada Mem.empty
              Mem.ada_user Hu Hret)
    as (Hout & _ & Hw & Hs & Hc & _).
  repeat split; assumption.
Defined.

(** A signup where C3 as first stated fails: two sets of collaborators that
    differ only in the analytics call, which throws in the second; the user
    is created in both runs, the first returns it and the second fails. *)
Lemma signup_result_depends_on_throwing_call :
  same_but_side_effects (Mem.services false) (Mem.throwing is_capture) /\
  user_created (Mem.signup_ada false) Mem.ada_user /\
  user_created (MemRuns.signup_ada_throwing is_capture) Mem.ada_user /\
  outcome (Mem.signup_ada false) = Fulfilled (Some Mem.ada_user) /\
  outcome (MemRuns.signup_ada_throwing is_capture)
    = Rejected "service unavailable" /\
  outcome (MemRuns.signup_ada_throwing is_capture)
    <> outcome (Mem.signup_ada false).
Proof.
  split.
  { intros c w Hc. destruct c; try discriminate Hc; reflexivity. }
  split.
  { eexists. split; [right; right; left; reflexivity | reflexivity]. }
  split.
  { eexists. split; [right; right; left; reflexivity | reflexivity]. }
  split; [reflexivity | ]. split; [reflexivity | ]. discriminate.
Qed.

Lemma signup_result_ignores_side_effects_witness :
  same_but_side_effects (Mem.services false) (Mem.services true) /\
  user_created (Mem.signup_ada false) Mem.ada_user /\
  dropped_calls_returned (Mem.signup_ada false) /\
  dropped_calls_returned (Mem.signup_ada true) /\
  outcome (Mem.signup_ada true) = Fulfilled (Some Mem.ada_user) /\
  calls (Mem.signup_ada true) = calls (Mem.signup_ada false) /\
  Forall (fun e => promise_rejected e = true)
         (firstn 2 (skipn 3 (log (Mem.signup_ada true)))).
Proof.
  assert (Hsame : same_but_side_effects (Mem.services false)
                                        (Mem.services true)).
  { intros c w Hc. destruct c; try discriminate Hc; reflexivity. }
  assert (Hu : user_created (Mem.signup_ada false) Mem.ada_user).
  { eexists. split; [right; right; left; reflexivity | reflexivity]. }
  assert (Hret : dropped_calls_returned (Mem.signup_ada false)).
  { unfold dropped_calls_returned. all_returned. }
  assert (Hret' : dropped_calls_returned (Mem.signup_ada true)).
  { unfold dropped_calls_returned. all_returned. }
  split; [exact Hsame | ]. split; [exact Hu | ].
  split; [exact Hret | ]. split; [exact Hret' | ].
  destruct (signup_result_ignores_side_effects
              (Mem.services false) (Mem.services true) Mem.production
              Mem.ada Mem.empty Mem.ada_user Hsame Hu Hret Hret')
    as (_ & Hout & Hcalls & _).
  split; [exact Hout | ]. split; [exact Hcalls | ].
  cbn. repeat constructor.
Defined.

(** A request where C4 as first stated fails: the email service throws and
    the handler fails after the one call, without returning the user. *)
Lemma forgot_password_throwing_email_fails :
  calls MemRuns.forgot_ada_throwing
    = [sendResetEmail MemRuns.ada_reset_email] /\
  outcome MemRuns.forgot_ada_throwing = Rejected "service unavailable" /\
  outcome MemRuns.forgot_ada_throwing <> Fulfilled Mem.ada_user.
Proof.
  split; [reflexivity | ]. split; [reflexivity | discriminate].
Qed.

(** A request on which the email promise is rejected: the handler returns
    the user all the same. *)
Lemma forgot_password_returns_user_and_sends_link_witness :
  dropped_calls_returned (MemRuns.forgot_ada true) /\
  Forall (fun e => promise_rejected e = true) (log (MemRuns.forgot_ada true)) /\
  outcome (MemRuns.forgot_ada true) = Fulfilled Mem.ada_user.
Proof.
  assert (Hret : dropped_calls_returned (MemRuns.forgot_ada true)).
  { unfold dropped_calls_returned. all_returned. }
  split; [exact Hret | ]. split; [cbn; repeat constructor | ].
  destruct (forgot_password_returns_user_and_sends_link
              (Mem.services true) Mem.development Mem.ada_user "tok123"
              Mem.after_signup)
    as (_ & _ & Hiff & _).
  exact (proj2 Hiff Hret).
Defined.

Lemma signup_plan_attribute_unread_witness :
  same_but_plan Mem.ada Mem.ada_no_plan /\
  run (Mem.services false)
      (Signup.handler (signupOptions Mem.development) Mem.ada) Mem.empty
  = run (Mem.services false)
        (Signup.handler (signupOptions Mem.development) Mem.ada_no_plan)
        Mem.empty.
Proof.
  assert (Hsame : same_but_plan Mem.ada Mem.ada_no_plan).
  { repeat split; reflexivity. }
  split; [exact Hsame | ].
  exact (proj1 (signup_plan_attribute_unread
                  (Mem.services false) Mem.development
                  Mem.ada Mem.ada_no_plan Mem.empty Hsame)).
Defined.

(** * Further properties of the handlers *)

Section SignupRuns.
Context `{IdType} {W : Type}.
Variable svc : Services W.
Variable env : ProcessEnv.

Ltac shapes args w :=
  generalize (signup_run_shape svc env args w); cbv zeta;
  generalize (run svc (Signup.handler (signupOptions env) args) w);
  intros [o wd l] S;
  unfold calls, user_created, dropped_calls_returned, count;
  cbn [outcome log world] in *.

(** X1.  The signup handler returns a user exactly when [db.user.create]
    was fulfilled with that user and none of the three calls after it
    threw. *)
Theorem signup_returns_user_iff_created
    (args : SignupArgs.t) (w : W) (u : User.t) :
  let r := run svc (Signup.handler (signupOptions env) args) w in
  outcome r = Fulfilled (Some u) <->
  user_created r u /\ dropped_calls_returned r.
Proof.
  shapes args w. destruct S; split.
  all: try discriminate.
  all: try (intros [Hu Hret]; find_entry Hu; threw Hret).
  - intros E. injection E as <-. split; [ | all_returned].
    eexists. split; [right; right; left; reflexivity | reflexivity].
  - intros [Hu _]. find_entry Hu. congruence.
Qed.

(** X2.  When the signup handler rejects, the reason is that of its last
    call and every call before it went through.  If that call is the key
    generation or an insert, no email, subscription or analytics call was
    issued; if it is one of these three, it threw, after the user was
    created. *)
Theorem signup_rejection_propagates
    (args : SignupArgs.t) (w : W) (reason : string) :
  let r := run svc (Signup.handler (signupOptions env) args) w in
  outcome r = Rejected reason ->
  exists (pre : list Entry) (last : Entry),
    log r = (pre ++ [last])%list /\
    rejection last = Some reason /\
    Forall (fun e => rejection e = None) pre /\
    (is_side_effect (call_of last) = false ->
     filter is_side_effect (calls r) = []) /\
    (is_side_effect (call_of last) = true ->
     exists u : User.t, user_created r u).
Proof.
  shapes args w. destruct S; intros E; try discriminate E;
    injection E as ->.
  - eexists [], _. split; [reflexivity | ].
    repeat split; try constructor; discriminate.
  - eexists [_], _. split; [reflexivity | ].
    repeat split; repeat constructor; discriminate.
  - eexists [_; _], _. split; [reflexivity | ].
    repeat split; repeat constructor; discriminate.
  - eexists [_; _; _], _. split; [reflexivity | ].
    split; [reflexivity | ]. split; [repeat constructor | ].
    split; [discriminate | ]. intros _. exists u. eexists.
    split; [right; right; left; reflexivity | reflexivity].
  - eexists [_; _; _; _], _. split; [reflexivity | ].
    split; [reflexivity | ]. split; [repeat constructor | ].
    split; [discriminate | ]. intros _. exists u. eexists.
    split; [right; right; left; reflexivity | reflexivity].
  - eexists [_; _; _; _; _], _. split; [reflexivity | ].
    split; [reflexivity | ]. split; [repeat constructor | ].
    split; [discriminate | ]. intros _. exists u. eexists.
    split; [right; right; left; reflexivity | reflexivity].
Qed.

(** X3.  When [db.user.create] yields a falsy value the signup handler
    returns undefined: the log is the key generation and the two inserts,
    all fulfilled, and no email, subscription or analytics call is issued.
    Returning undefined happens in no other way. *)
Theorem signup_falsy_user_no_side_effects (args : SignupArgs.t) (w : W) :
  let r := run svc (Signup.handler (signupOptions env) args) w in
  outcome r = Fulfilled None ->
  List.length (log r) = 3%nat /\
  Forall (fun e => rejection e = None) (log r) /\
  count is_db_write (calls r) = 2%nat /\
  filter is_side_effect (calls r) = [] /\
  (forall u : User.t, ~ user_created r u).
Proof.
  shapes args w. destruct S; intros E; try discriminate E.
  repeat split; try reflexivity.
  - repeat constructor.
  - intros u Hu. find_entry Hu.
Qed.

(** X4.  When the user insert is rejected the signup handler rejects with
    the same reason and stops there: the account it inserted just before
    stays, with no call after the failed insert to remove it, and the failed
    insert pointed to that account. *)
Theorem signup_user_rejected_leaves_account
    (args : SignupArgs.t) (w : W) (reason : string) :
  let r := run svc (Signup.handler (signupOptions env) args) w in
  (exists e, In e (log r) /\ user_create_rejected e = Some reason) ->
  outcome r = Rejected reason /\
  exists (key : string) (a : Account.t) (d : UserCreate.data),
    log r =
      [Settled (generateAPIKey 32) (Fulfilled key);
       Settled (db_account_create {| AccountCreate.apiKey := key |})
               (Fulfilled a);
       Settled (db_user_create d) (Rejected reason)] /\
    UserCreate.accountId d = Account.id a.
Proof.
  shapes args w. destruct S; intros Hrej; find_entry Hrej.
  injection Hc as ->. split; [reflexivity | ].
  do 3 eexists. split; reflexivity.
Qed.

(** X5.  Every run of the signup handler starts with [generateAPIKey(32)]
    and generates one key.  It makes each later call at most once and none
    without the one before it: the account insert, the user insert, the
    welcome email, the subscription, the analytics event.  It sends no reset
    email and makes at most six calls. *)
Theorem signup_call_invariants (args : SignupArgs.t) (w : W) :
  let r := run svc (Signup.handler (signupOptions env) args) w in
  hd_error (calls r) = Some (generateAPIKey 32) /\
  count is_key_generation (calls r) = 1%nat /\
  (count is_capture (calls r) <= count is_subscription (calls r))%nat /\
  (count is_subscription (calls r) <= count is_welcome_email (calls r))%nat /\
  (count is_welcome_email (calls r) <= count is_user_create (calls r))%nat /\
  (count is_user_create (calls r) <= count is_account_create (calls r))%nat /\
  (count is_account_create (calls r) <= 1)%nat /\
  count is_reset_email (calls r) = 0%nat /\
  (List.length (calls r) <= 6)%nat.
Proof.
  shapes args w. destruct S; cbn; repeat split; auto; lia.
Qed.

(** X6.  In a run that reaches the analytics call, the event agrees with
    what went to the database and to the subscription service: same email
    and name as the user insert, grouped under the account the user was
    linked to, same plan as the subscription, and a distinct id made of the
    user id the subscription got. *)
Theorem signup_analytics_matches_database
    (args : SignupArgs.t) (w : W)
    (d : UserCreate.data) (i : Subscription.input) (m : Capture.message) :
  let r := run svc (Signup.handler (signupOptions env) args) w in
  In (db_user_create d) (calls r) ->
  In (createSubscription i) (calls r) ->
  In (phDefaultClient_capture m) (calls r) ->
  let s := Capture.dollar_set (Capture.properties m) in
  Capture.email s = UserCreate.email d /\
  Capture.name s = UserCreate.name d /\
  Capture.account (Capture.groups m) = UserCreate.accountId d /\
  Capture.plan s = Subscription.type i /\
  Capture.distinctId m = "shepherd-user-" ++ show_id (Subscription.userId i).
Proof.
  shapes args w. destruct S; intros Hd Hi Hm; pick Hd; pick Hi; pick Hm.
  all: injection Hd as <-; injection Hi as <-; injection Hm as <-.
  all: repeat split.
Qed.

End SignupRuns.

(** ** Settings and the reset link *)

Section Settings.
Context `{IdType} {W : Type}.
Variable svc : Services W.

(** X7.  The reset link tells the base URL and the token apart: two reset
    emails with the same link were sent under the same base URL and for the
    same token, whoever the users are. *)
Theorem reset_link_determines_token
    (env1 env2 : ProcessEnv) (user1 user2 : User.t)
    (token1 token2 : string) (w1 w2 : W) (i1 i2 : ResetEmail.input) :
  let r1 :=
    run svc (ForgotPassword.handler (forgotPasswordOptions env1) user1 token1)
        w1 in
  let r2 :=
    run svc (ForgotPassword.handler (forgotPasswordOptions env2) user2 token2)
        w2 in
  In (sendResetEmail i1) (calls r1) ->
  In (sendResetEmail i2) (calls r2) ->
  ResetEmail.resetLink i1 = ResetEmail.resetLink i2 ->
  url env1 = url env2 /\ token1 = token2.
Proof.
  cbv zeta. cbn [run ForgotPassword.handler forgotPasswordOptions].
  destruct (svc _ w1) as [[p1 | e1] w1'];
    destruct (svc _ w2) as [[p2 | e2] w2'];
    unfold calls; cbn [log logged map call_of outcome world];
    intros [E1 | []] [E2 | []] Hlink;
    injection E1 as <-; injection E2 as <-;
    cbn [ResetEmail.resetLink] in Hlink; unfold url in *;
    destruct (strict_eq (NODE_ENV env1) "development");
    destruct (strict_eq (NODE_ENV env2) "development");
    cbn in Hlink; split; congruence.
Qed.

(** X8.  The options given to [DbAuthHandler] depend on the environment
    only through whether [NODE_ENV] is exactly [development]: two
    environments that agree on that give the same options, handlers
    included. *)
Theorem options_depend_on_development_only
    (env1 env2 : ProcessEnv) (cookieName : string) :
  strict_eq (NODE_ENV env1) "development"
    = strict_eq (NODE_ENV env2) "development" ->
  authHandlerOptions env1 cookieName = authHandlerOptions env2 cookieName.
Proof.
  intros E.
  unfold authHandlerOptions, cookie, webAuthn, forgotPasswordOptions,
    signupOptions, url, userPlan, strict_neq.
  rewrite E. reflexivity.
Qed.

(** X9.  The settings agree on the site: the WebAuthn origin is the base URL
    of the reset link, it is the scheme, the WebAuthn domain and, in
    development, the port, and the cookie is Secure exactly when that origin
    is an https one. *)
Theorem origin_url_cookie_agree (env : ProcessEnv) (cookieName : string) :
  let o := authHandlerOptions env cookieName in
  let secure :=
    Cookie.Secure (Cookie.attributes (DbAuthHandlerOptions.cookie o)) in
  let origin := WebAuthn.origin (DbAuthHandlerOptions.webAuthn o) in
  let domain := WebAuthn.domain (DbAuthHandlerOptions.webAuthn o) in
  origin = url env /\
  secure = String.prefix "https://" origin /\
  origin =
    (if secure then "https://" else "http://") ++ domain
    ++ (if secure then EmptyString else ":8910").
Proof.
  cbn. unfold url, strict_neq.
  destruct (strict_eq (NODE_ENV env) "development"); repeat split.
Qed.

End Settings.

(** ** More runs on the in-memory double *)

Lemma signup_rejection_propagates_witness :
  outcome (MemRuns.signup_ada_throwing is_subscription)
    = Rejected "service unavailable" /\
  exists (pre : list Entry) (last : Entry),
    log (MemRuns.signup_ada_throwing is_subscription) = (pre ++ [last])%list /\
    rejection last = Some "service unavailable" /\
    Forall (fun e => rejection e = None) pre.
Proof.
  assert (E : outcome (MemRuns.signup_ada_throwing is_subscription)
              = Rejected "service unavailable")
    by reflexivity.
  split; [exact E | ].
  destruct (signup_rejection_propagates
              (Mem.throwing is_subscription) Mem.production Mem.ada Mem.empty
              _ E)
    as (pre & last & Hlog & Hrej & Hpre & _).
  exists pre, last. split; [exact Hlog | ]. split; [exact Hrej | exact Hpre].
Defined.

Lemma signup_falsy_user_no_side_effects_witness :
  outcome MemRuns.signup_ada_falsy = Fulfilled None /\
  List.length (log MemRuns.signup_ada_falsy) = 3%nat /\
  filter is_side_effect (calls MemRuns.signup_ada_falsy) = [].
Proof.
  assert (E : outcome MemRuns.signup_ada_falsy = Fulfilled None)
    by reflexivity.
  split; [exact E | ].
  destruct (signup_falsy_user_no_side_effects
              (falsy_user (Mem.services false)) Mem.production Mem.ada
              Mem.empty E)
    as (Hlen & _ & _ & Hnone & _).
  split; [exact Hlen | exact Hnone].
Defined.

(** On the double, a second signup with a taken email fails and leaves one
    more account than there are users. *)
Lemma signup_user_rejected_leaves_account_witness :
  (exists e, In e (log MemRuns.signup_ada_again) /\
             user_create_rejected e
               = Some "Unique constraint failed on the fields: (`email`)") /\
  outcome MemRuns.signup_ada_again
    = Rejected "Unique constraint failed on the fields: (`email`)" /\
  List.length (Mem.accounts (world MemRuns.signup_ada_again)) = 2%nat /\
  List.length (Mem.users (world MemRuns.signup_ada_again)) = 1%nat.
Proof.
  assert (Hrej : exists e, In e (log MemRuns.signup_ada_again) /\
                   user_create_rejected e
                     = Some "Unique constraint failed on the fields: (`email`)").
  { eexists. split; [right; right; left; reflexivity | reflexivity]. }
  split; [exact Hrej | ].
  destruct (signup_user_rejected_leaves_account
              (Mem.services false) Mem.production Mem.ada Mem.after_signup
              _ Hrej)
    as (Hout & _).
  split; [exact Hout | ]. split; reflexivity.
Defined.

Lemma signup_analytics_matches_database_witness :
  In (db_user_create Mem.ada_user_data) (calls (Mem.signup_ada false)) /\
  In (createSubscription Mem.ada_subscription) (calls (Mem.signup_ada false)) /\
  In (phDefaultClient_capture MemRuns.ada_event)
     (calls (Mem.signup_ada false)) /\
  Capture.account (Capture.groups MemRuns.ada_event)
    = UserCreate.accountId Mem.ada_user_data.
Proof.
  assert (Hd : In (db_user_create Mem.ada_user_data)
                  (calls (Mem.signup_ada false)))
    by (right; right; left; reflexivity).
  assert (Hi : In (createSubscription Mem.ada_subscription)
                  (calls (Mem.signup_ada false)))
    by (do 4 right; left; reflexivity).
  assert (Hm : In (phDefaultClient_capture MemRuns.ada_event)
                  (calls (Mem.signup_ada false)))
    by (do 5 right; left; reflexivity).
  repeat (split; [assumption | ]).
  destruct (signup_analytics_matches_database
              (Mem.services false) Mem.production Mem.ada Mem.empty
              _ _ _ Hd Hi Hm)
    as (_ & _ & Hacc & _).
  exact Hacc.
Defined.

Lemma reset_link_determines_token_witness :
  let i :=
    {| ResetEmail.to := "ada@example.com";
       ResetEmail.subject := "Reset your password";
       ResetEmail.resetLink :=
         "http://localhost:8910/reset-password?resetToken=tok123" |} in
  In (sendResetEmail i)
     (calls (run (Mem.services false)
                 (ForgotPassword.handler
                    (forgotPasswordOptions Mem.development)
                    Mem.ada_user "tok123")
                 Mem.after_signup)) /\
  (url Mem.development = url Mem.development /\ "tok123" = "tok123").
Proof.
  intros i.
  assert (Hin : In (sendResetEmail i)
                   (calls (run (Mem.services false)
                               (ForgotPassword.handler
                                  (forgotPasswordOptions Mem.development)
                                  Mem.ada_user "tok123")
                               Mem.after_signup)))
    by (left; reflexivity).
  split; [exact Hin | ].
  exact (reset_link_determines_token
           (Mem.services false) Mem.development Mem.development
           Mem.ada_user Mem.ada_user "tok123" "tok123"
           Mem.after_signup Mem.after_signup i i Hin Hin eq_refl).
Defined.

Lemma options_depend_on_development_only_witness :
  strict_eq (NODE_ENV Mem.production) "development"
    = strict_eq (NODE_ENV unset_env) "development" /\
  authHandlerOptions (H := Mem.ids) Mem.production "session"
    = authHandlerOptions unset_env "session".
Proof.
  split; [reflexivity | ].
  apply (options_depend_on_development_only
           Mem.production unset_env "session").
  reflexivity.
Defined.
